(** * Account API: the request-handling pipeline of [api/account.api.go]

    The six handlers of [AccountAPI] (FindByID, List, Create, Update, Delete,
    Excel) are embedded as programs of a state monad.  The state holds the
    world the service layer works on and the chronological trace of what the
    handler did to its collaborators: access checks, service calls, debug
    logs, audit records, workbook generation and everything written to the
    HTTP response.  The collaborators whose code lives in other packages
    (service, engine, types, param, excel, the JSON decoder) are fields of
    records the handlers are parametrised over. *)

From Stdlib Require Import String Ascii List NArith ZArith Bool Lia.
From Stdlib Require QArith.
From ExtLib Require Import Structures.Monad Structures.MonadState.
From ExtLib Require Import Data.Monads.StateMonad.
Import ListNotations.
Import MonadNotation.
Local Open Scope monad_scope.
Local Open Scope string_scope.
Local Open Scope list_scope.

(** ** Basic types *)

(** [types.RowID]: the identifier of a row. *)
Definition RowID := N.

(** A Go [error] value, identified with its message. *)
Definition error := string.

(** A Go [(value, error)] result; the handlers never read the value when the
    error is not nil. *)
Inductive result (A : Type) : Type :=
| Ok (a : A)
| Fail (err : error).
Arguments Ok {A} a.
Arguments Fail {A} err.

(** [net/http] status codes used by the handlers. *)
Module http.
Definition StatusOK : N := 200.
Definition StatusForbidden : N := 403.
Definition StatusNotFound : N := 404.
Definition StatusNotAcceptable : N := 406.
Definition StatusInternalServerError : N := 500.
End http.

(** [sigma/internal/term]: keys of the localized messages. *)
Module term.
Inductive t :=
| You_dont_have_permission
| Invalid_ID
| Record_Not_Found
| V_info
| List_of_V
| V_created_successfully
| V_updated_successfully
| V_deleted_successfully.
End term.

(** [sigma/domain/core/access/resource]: capabilities. *)
Module resource.
Inductive t := AccountRead | AccountWrite | AccountExcel.
End resource.

(** [sigma/internal/enum/event]: kinds of audit events. *)
Module event.
Inductive t :=
| AccountView
| AccountList
| AccountCreate
| AccountUpdate
| AccountDelete
| AccountExcel.
End event.

(** [sigma/model].
    Modelled from the spec: the declaration of [model.Account] is not part of
    the handler file.  The entity has an identifier and further named
    columns; a JSON body is a partial entity in which the identifier may be
    present ("a conflicting body identifier") or omitted ("a body omitting
    the identifier"). *)
Module model.
Record Account := { ID : RowID; Columns : list (string * string) }.

(** The zero value of [var account model.Account]. *)
Definition zero : Account := {| ID := 0%N; Columns := [] |}.

Definition withID (a : Account) (id : RowID) : Account :=
  {| ID := id; Columns := Columns a |}.

(** A decoded JSON object for an account: only the keys the body has. *)
Record Body := { bodyID : option RowID; bodyColumns : list (string * string) }.

(** Decoding into an existing struct overwrites the fields the body has
    and leaves the others as they were. *)
Definition overlay (b : Body) (a : Account) : Account :=
  {| ID := match bodyID b with Some i => i | None => ID a end;
     Columns := bodyColumns b ++ Columns a |}.
End model.

(** [gin.Context], the part of it the handlers read. *)
Module gin.
Record Context := {
  Params : list (string * string);
  Keys : list (string * string);
  RawQuery : string;
  Body : string
}.

Fixpoint get (key : string) (l : list (string * string)) : option string :=
  match l with
  | [] => None
  | (k, v) :: l' => if String.eqb k key then Some v else get key l'
  end.

(** [c.Param(key)]: the path parameter, the empty string when absent. *)
Definition Param (c : Context) (key : string) : string :=
  match get key (Params c) with
  | Some v => v
  | None => ""
  end.
End gin.

(** [sigma/utils/excel]: the calls of the fluent workbook builder, in the
    order they are chained. *)
Module excel.
Inductive Op :=
| New (name : string)
| AddSheet (name : string)
| Active (name : string)
| SetPageLayout (orientation size : string)
| SetPageMargins (m : QArith_base.Q)
| SetHeaderFooter
| SetColWidth (first last : string) (width : QArith_base.Q)
| WriteHeader (labels : list string)
| SetSheetFields (fields : list string)
| WriteData (rows : list model.Account)
| AddTable.
End excel.

Definition thisAccount := "account".
Definition thisAccounts := "accounts".

(** ** The pipeline *)

Section Pipeline.

(** [World] is whatever the service layer reads and writes (the store);
    [Param] is [param.Param], the resolved query descriptor; [Page] is the
    data [Service.List] returns. *)
Context {World Param Page : Type}.

(** *** What the response carries *)

Inductive Payload :=
| OfAccount (a : model.Account)
| OfPage (d : Page).

(** The argument of [resp.Error]: a term key or a Go error. *)
Inductive ErrVal :=
| OfTerm (t : term.t)
| OfError (e : error).

(** A message is a literal string or a term key with its parameters, to be
    translated by the engine's term table. *)
Inductive Msg :=
| Literal (s : string)
| Localized (t : term.t) (args : list string).

(** [response.Result]. *)
Record Result := {
  Message : option Msg;
  Data : option Payload;
  Error : option ErrVal
}.

(** What a handler does to the HTTP response. *)
Inductive Output :=
| OutEnvelope (status : option N) (body : Result)
| OutAbortWithStatusJSON (code : N) (err : error)
| OutJSON (code : N) (body : Result)
| OutHeader (key value : string)
| OutData (code : N) (contentType : string) (data : list Byte.byte).

(** *** Calls and traces *)

Inductive Call :=
| CallFindByID (id : RowID)
| CallList (params : Param)
| CallCreate (account : model.Account) (params : Param)
| CallSave (account : model.Account)
| CallDelete (id : RowID)
| CallExcel (params : Param).

Inductive Event :=
| EvCheckAccess (r : resource.t) (denied : bool)
| EvService (call : Call) (err : option error)
| EvDebug (err : option error)
| EvRecord (kind : event.t) (data : list (option model.Account))
| EvWorkbook (ops : list excel.Op)
| EvGenerate (ok : bool)
| EvWrite (o : Output).

Record St := { world : World; trace : list Event }.

(** The monad of the handlers. *)
Definition M := state St.

Definition emit (e : Event) : M unit :=
  s <- get ;;
  put {| world := world s; trace := trace s ++ [e] |}.

Definition is_ok {A} (r : result A) : bool :=
  match r with Ok _ => true | Fail _ => false end.

(** The [err] of a Go [(value, err)] pair: [None] is [nil]. *)
Definition err_of {A} (r : result A) : option error :=
  match r with Ok _ => None | Fail e => Some e end.

(** A call into the service layer: it may change the world, and the call
    and the error it returned are appended to the trace when it returns. *)
Definition invoke {A} (call : Call) (f : World -> result A * World)
  : M (result A) :=
  s <- get ;;
  let rw := f (world s) in
  put {| world := snd rw;
         trace := trace s ++ [EvService call (err_of (fst rw))] |} ;;
  ret (fst rw).

(** The trace a handler leaves when started in world [w]. *)
Definition run (h : M unit) (w : World) : list Event :=
  trace (snd (runState h {| world := w; trace := [] |})).

(** The world a handler leaves when started in world [w]. *)
Definition after (h : M unit) (w : World) : World :=
  world (snd (runState h {| world := w; trace := [] |})).

(** *** Collaborators *)

(** [service.AccountServ]. *)
Record AccountServ := {
  serv_FindByID : RowID -> World -> result model.Account * World;
  serv_List : Param -> World -> result Page * World;
  serv_Create : model.Account -> Param -> World -> result model.Account * World;
  serv_Save : model.Account -> World -> result model.Account * World;
  serv_Delete : RowID -> World -> result model.Account * World;
  serv_Excel : Param -> World -> result (list model.Account) * World
}.

(** [core.Engine]: the permission registry behind [CheckAccess]
    ([true] = denied). *)
Record core_Engine := {
  denies : World -> gin.Context -> resource.t -> bool
}.

(** [AccountAPI]. *)
Record AccountAPI := { Service : AccountServ; Engine : core_Engine }.

(** Functions of other packages the handlers call. *)
Record Packages := {
  StrToRowID : string -> result RowID;
  param_Get : gin.Context -> string -> Param;
  decodeJSON : string -> result model.Body;
  validate : model.Account -> option error;
  excel_Generate : list excel.Op -> result (list Byte.byte * string)
}.

Variable pk : Packages.

(** *** [sigma/internal/response]
    Modelled from the spec: the package is not part of the handler file.
    The builder collects a status code, a message and an error; [JSON]
    writes them with the payload as the one envelope of the request.  A
    status that was never set is written as [None]. *)
Record Response := {
  engine : core_Engine;
  context : gin.Context;
  status : option N;
  res : Result
}.

Definition New (e : core_Engine) (c : gin.Context) : Response :=
  {| engine := e; context := c; status := None;
     res := {| Message := None; Data := None; Error := None |} |}.

Definition CheckAccess (resp : Response) (r : resource.t) : M bool :=
  s <- get ;;
  let d := denies (engine resp) (world s) (context resp) r in
  emit (EvCheckAccess r d) ;;
  ret d.

Definition Status (resp : Response) (code : N) : Response :=
  {| engine := engine resp; context := context resp;
     status := Some code; res := res resp |}.

Definition Error_ (resp : Response) (e : ErrVal) : Response :=
  {| engine := engine resp; context := context resp; status := status resp;
     res := {| Message := Message (res resp); Data := Data (res resp);
               Error := Some e |} |}.

Definition MessageT (resp : Response) (t : term.t) (args : list string)
  : Response :=
  {| engine := engine resp; context := context resp; status := status resp;
     res := {| Message := Some (Localized t args); Data := Data (res resp);
               Error := Error (res resp) |} |}.

Definition JSON (resp : Response) (data : option Payload) : M unit :=
  emit (EvWrite (OutEnvelope (status resp)
                   {| Message := Message (res resp); Data := data;
                      Error := Error (res resp) |})).

(** *** Methods of [gin.Context] and [core.Engine] *)

(** [c.ShouldBindJSON(&account)]: decode the body into [account], then
    validate the struct. *)
Definition ShouldBindJSON (c : gin.Context) (account : model.Account)
  : result model.Account :=
  match decodeJSON pk (gin.Body c) with
  | Fail err => Fail err
  | Ok b =>
      let a := model.overlay b account in
      match validate pk a with
      | Some err => Fail err
      | None => Ok a
      end
  end.

Definition AbortWithStatusJSON (code : N) (err : error) : M unit :=
  emit (EvWrite (OutAbortWithStatusJSON code err)).

Definition c_JSON (code : N) (body : Result) : M unit :=
  emit (EvWrite (OutJSON code body)).

Definition Header (key value : string) : M unit :=
  emit (EvWrite (OutHeader key value)).

Definition c_Data (code : N) (contentType : string) (data : list Byte.byte)
  : M unit :=
  emit (EvWrite (OutData code contentType data)).

Definition Engine_Record (kind : event.t) (data : list (option model.Account))
  : M unit :=
  emit (EvRecord kind data).

Definition Engine_Debug (err : option error) : M unit :=
  emit (EvDebug err).

(** The builder chain of [Excel], from [excel.New] to [AddTable]. *)
Definition workbook (accounts : list model.Account) : list excel.Op :=
  [ excel.New "account";
    excel.AddSheet "Accounts";
    excel.AddSheet "Summary";
    excel.Active "Accounts";
    excel.SetPageLayout "landscape" "A4";
    excel.SetPageMargins (QArith_base.Qmake 2%Z 10%positive);
    excel.SetHeaderFooter;
    excel.SetColWidth "B" "C" (QArith_base.Qmake 153%Z 10%positive);
    excel.SetColWidth "M" "M" (QArith_base.Qmake 20%Z 1%positive);
    excel.Active "Summary";
    excel.SetColWidth "A" "D" (QArith_base.Qmake 20%Z 1%positive);
    excel.Active "Accounts";
    excel.WriteHeader
      ["ID"; "Name"; "Legal Name"; "Server Address"; "Expiration"; "Plan";
       "Detail"; "Phone"; "Email"; "Website"; "Type"; "Code"; "Updated At"];
    excel.SetSheetFields
      ["ID"; "Name"; "LegalName"; "ServerAddress"; "Expiration"; "Plan";
       "Detail"; "Phone"; "Email"; "Website"; "Type"; "Code"; "UpdatedAt"];
    excel.WriteData accounts;
    excel.AddTable ].

Definition build (ops : list excel.Op) : M (list excel.Op) :=
  emit (EvWorkbook ops) ;; ret ops.

Definition Generate (ex : list excel.Op)
  : M (result (list Byte.byte * string)) :=
  let r := excel_Generate pk ex in
  emit (EvGenerate (is_ok r)) ;; ret r.

(** *** The handlers *)

(** FindByID is used for fetch a account by it's id *)
Definition FindByID (p : AccountAPI) (c : gin.Context) : M unit :=
  let resp := New (Engine p) c in
  denied <- CheckAccess resp resource.AccountRead ;;
  if denied then
    JSON (Error_ (Status resp http.StatusForbidden)
            (OfTerm term.You_dont_have_permission)) None
  else
    match StrToRowID pk (gin.Param c "accountID") with
    | Fail _ => JSON (Error_ resp (OfTerm term.Invalid_ID)) None
    | Ok accountID =>
        r <- invoke (CallFindByID accountID)
               (serv_FindByID (Service p) accountID) ;;
        match r with
        | Fail err =>
            JSON (MessageT (Error_ (Status resp http.StatusNotFound)
                              (OfError err))
                    term.Record_Not_Found []) None
        | Ok account =>
            Engine_Record event.AccountView [] ;;
            JSON (MessageT (Status resp http.StatusOK)
                    term.V_info [thisAccount])
              (Some (OfAccount account))
        end
    end.

(** List of accounts *)
Definition List (p : AccountAPI) (c : gin.Context) : M unit :=
  let resp := New (Engine p) c in
  denied <- CheckAccess resp resource.AccountWrite ;;
  if denied then
    JSON (Error_ (Status resp http.StatusForbidden)
            (OfTerm term.You_dont_have_permission)) None
  else
    let params := param_Get pk c thisAccounts in
    r <- invoke (CallList params) (serv_List (Service p) params) ;;
    Engine_Debug (err_of r) ;;
    match r with
    | Fail err => JSON (Error_ resp (OfError err)) None
    | Ok data =>
        Engine_Record event.AccountList [] ;;
        JSON (MessageT (Status resp http.StatusOK)
                term.List_of_V [thisAccounts])
          (Some (OfPage data))
    end.

(** Create account *)
Definition Create (p : AccountAPI) (c : gin.Context) : M unit :=
  let account := model.zero in
  let resp := New (Engine p) c in
  denied <- CheckAccess resp resource.AccountWrite ;;
  if denied then
    JSON (Error_ (Status resp http.StatusForbidden)
            (OfTerm term.You_dont_have_permission)) None
  else
    match ShouldBindJSON c account with
    | Fail err => AbortWithStatusJSON http.StatusNotAcceptable err
    | Ok account =>
        let params := param_Get pk c thisAccounts in
        r <- invoke (CallCreate account params)
               (serv_Create (Service p) account params) ;;
        match r with
        | Fail err => JSON (Error_ resp (OfError err)) None
        | Ok createdAccount =>
            Engine_Record event.AccountCreate [None; Some account] ;;
            JSON (MessageT (Status resp http.StatusOK)
                    term.V_created_successfully [thisAccount])
              (Some (OfAccount createdAccount))
        end
    end.

(** Update account *)
Definition Update (p : AccountAPI) (c : gin.Context) : M unit :=
  let resp := New (Engine p) c in
  denied <- CheckAccess resp resource.AccountWrite ;;
  if denied then
    JSON (Error_ (Status resp http.StatusForbidden)
            (OfTerm term.You_dont_have_permission)) None
  else
    let account := model.zero in
    match StrToRowID pk (gin.Param c "accountID") with
    | Fail _ => JSON (Error_ resp (OfTerm term.Invalid_ID)) None
    | Ok id =>
        let account := model.withID account id in
        match ShouldBindJSON c account with
        | Fail err => AbortWithStatusJSON http.StatusNotAcceptable err
        | Ok account =>
            r <- invoke (CallFindByID (model.ID account))
                   (serv_FindByID (Service p) (model.ID account)) ;;
            match r with
            | Fail _ =>
                JSON (Error_ (Status resp http.StatusNotFound)
                        (OfTerm term.Record_Not_Found)) None
            | Ok accountBefore =>
                r <- invoke (CallSave account)
                       (serv_Save (Service p) account) ;;
                match r with
                | Fail err => JSON (Error_ resp (OfError err)) None
                | Ok accountUpdated =>
                    Engine_Record event.AccountUpdate
                      [Some accountBefore; Some account] ;;
                    JSON (MessageT (Status resp http.StatusOK)
                            term.V_updated_successfully [thisAccount])
                      (Some (OfAccount accountUpdated))
                end
            end
        end
    end.

(** Delete account *)
Definition Delete (p : AccountAPI) (c : gin.Context) : M unit :=
  let resp := New (Engine p) c in
  let account := model.zero in
  denied <- CheckAccess resp resource.AccountWrite ;;
  if denied then
    JSON (Error_ (Status resp http.StatusForbidden)
            (OfTerm term.You_dont_have_permission)) None
  else
    match StrToRowID pk (gin.Param c "accountID") with
    | Fail _ => JSON (Error_ resp (OfTerm term.Invalid_ID)) None
    | Ok id =>
        let account := model.withID account id in
        r <- invoke (CallDelete (model.ID account))
               (serv_Delete (Service p) (model.ID account)) ;;
        match r with
        | Fail err =>
            JSON (Error_ (Status resp http.StatusInternalServerError)
                    (OfError err)) None
        | Ok account =>
            Engine_Record event.AccountDelete [Some account] ;;
            JSON (MessageT (Status resp http.StatusOK)
                    term.V_deleted_successfully [thisAccount]) None
        end
    end.

(** Excel generate excel files based on search *)
Definition Excel (p : AccountAPI) (c : gin.Context) : M unit :=
  let resp := New (Engine p) c in
  denied <- CheckAccess resp resource.AccountExcel ;;
  if denied then
    JSON (Error_ (Status resp http.StatusForbidden)
            (OfTerm term.You_dont_have_permission)) None
  else
    let params := param_Get pk c thisAccounts in
    r <- invoke (CallExcel params) (serv_Excel (Service p) params) ;;
    match r with
    | Fail _ =>
        JSON (Error_ (Status resp http.StatusNotFound)
                (OfTerm term.Record_Not_Found)) None
    | Ok accounts =>
        Engine_Record event.AccountExcel [] ;;
        ex <- build (workbook accounts) ;;
        g <- Generate ex ;;
        match g with
        | Fail _ =>
            c_JSON http.StatusInternalServerError
              {| Message := Some (Literal "Error in generating Excel file");
                 Data := None; Error := None |}
        | Ok (buffer, downloadName) =>
            Header "Content-Description" "File Transfer" ;;
            Header "Content-Disposition"
              ("attachment; filename=" ++ downloadName)%string ;;
            c_Data http.StatusOK "application/octet-stream" buffer
        end
    end.

End Pipeline.

Arguments ShouldBindJSON {Param} pk c account : simpl never.
Arguments gin.Param c key : simpl never.
Arguments workbook accounts : simpl never.

(** The six verbs of the HTTP surface and the handler of each. *)
Inductive Verb := VFindByID | VList | VCreate | VUpdate | VDelete | VExcel.

Section Dispatch.
Context {World Param Page : Type}.

Definition handler (pk : @Packages Param) (v : Verb)
  : @AccountAPI World Param Page -> gin.Context -> M unit :=
  match v with
  | VFindByID => FindByID pk
  | VList => List pk
  | VCreate => Create pk
  | VUpdate => Update pk
  | VDelete => Delete pk
  | VExcel => Excel pk
  end.
End Dispatch.

(** ** A small in-memory instance

    A table of accounts as the world, a service over it, a role-based
    permission registry and a decoder for bodies written [{id:7,name:acme}].
    It is used to run the handlers on concrete requests. *)
Module Demo.

Definition World := list model.Account.
Definition Param := string.
Definition Page := list model.Account.

Fixpoint find (id : RowID) (w : World) : option model.Account :=
  match w with
  | [] => None
  | a :: w' => if N.eqb (model.ID a) id then Some a else find id w'
  end.

Fixpoint remove (id : RowID) (w : World) : World :=
  match w with
  | [] => []
  | a :: w' => if N.eqb (model.ID a) id then remove id w' else a :: remove id w'
  end.

Definition next_id (w : World) : RowID :=
  N.succ (fold_right (fun a m => N.max (model.ID a) m) 0%N w).

Definition serv : @AccountServ World Param Page :=
  {| serv_FindByID id w :=
       match find id w with
       | Some a => (Ok a, w)
       | None => (Fail "record not found", w)
       end;
     serv_List q w :=
       if String.eqb q "limit=-1" then (Fail "invalid limit", w) else (Ok w, w);
     serv_Create a q w :=
       match gin.get "name" (model.Columns a) with
       | None => (Fail "name is required", w)
       | Some _ =>
           let a' := model.withID a (next_id w) in (Ok a', w ++ [a'])
       end;
     serv_Save a w :=
       match gin.get "name" (model.Columns a) with
       | None => (Fail "name is required", w)
       | Some _ => (Ok a, a :: remove (model.ID a) w)
       end;
     serv_Delete id w :=
       match find id w with
       | Some a => (Ok a, remove id w)
       | None => (Fail "record not found", w)
       end;
     serv_Excel q w :=
       if String.eqb q "limit=-1" then (Fail "invalid limit", w) else (Ok w, w)
  |}.

(** Roles: an admin may do everything, a writer may read and write, a
    reader may only read; anybody else is denied. *)
Definition eng : @core_Engine World :=
  {| denies w c r :=
       match gin.get "role" (gin.Keys c), r with
       | Some "admin", _ => false
       | Some "writer", resource.AccountRead => false
       | Some "writer", resource.AccountWrite => false
       | Some "reader", resource.AccountRead => false
       | _, _ => true
       end |}.

Definition api : @AccountAPI World Param Page :=
  {| Service := serv; Engine := eng |}.

Definition digit (a : ascii) : option N :=
  let n := N_of_ascii a in
  if ((48 <=? n) && (n <=? 57))%N then Some (n - 48)%N else None.

Fixpoint digits (s : string) (acc : N) : option N :=
  match s with
  | EmptyString => Some acc
  | String a s' =>
      match digit a with
      | Some d => digits s' (10 * acc + d)%N
      | None => None
      end
  end.

Definition parse_id (s : string) : result RowID :=
  match s with
  | EmptyString => Fail "invalid syntax"
  | _ => match digits s 0%N with
         | Some n => Ok n
         | None => Fail "invalid syntax"
         end
  end.

(** [split sep s cur]: the pieces of [s] between occurrences of [sep]. *)
Fixpoint split (sep : ascii) (s : string) (cur : string) : list string :=
  match s with
  | EmptyString => [cur]
  | String a s' =>
      if Ascii.eqb a sep then cur :: split sep s' ""
      else split sep s' (cur ++ String a "")%string
  end.

Definition field (b : result model.Body) (kv : string) : result model.Body :=
  match b with
  | Fail e => Fail e
  | Ok b =>
      match split ":" kv "" with
      | [k; v] =>
          if String.eqb k "id" then
            match parse_id v with
            | Ok n => Ok {| model.bodyID := Some n;
                            model.bodyColumns := model.bodyColumns b |}
            | Fail e => Fail e
            end
          else Ok {| model.bodyID := model.bodyID b;
                     model.bodyColumns := model.bodyColumns b ++ [(k, v)] |}
      | _ => Fail "invalid character"
      end
  end.

Definition decode (body : string) : result model.Body :=
  match body with
  | String "{" rest =>
      match split "}" rest "" with
      | [inner; ""] =>
          fold_left field (split "," inner "")
            (Ok {| model.bodyID := None; model.bodyColumns := [] |})
      | _ => Fail "unexpected end of JSON input"
      end
  | _ => Fail "invalid character"
  end.

(** [generates] tells whether the workbook can be serialized. *)
Definition pk (generates : bool) : @Packages Param :=
  {| StrToRowID := parse_id;
     param_Get c name := gin.RawQuery c;
     decodeJSON := decode;
     validate a := None;
     excel_Generate ops :=
       if generates then Ok ([Byte.x50; Byte.x4b], "account.xlsx")
       else Fail "cannot write the workbook" |}.

Definition request (role id query body : string) : gin.Context :=
  {| gin.Params := [("accountID", id)];
     gin.Keys := [("role", role)];
     gin.RawQuery := query;
     gin.Body := body |}.

Definition table : World :=
  [ {| model.ID := 7%N; model.Columns := [("name", "seven")] |};
    {| model.ID := 42%N; model.Columns := [("name", "forty-two")] |} ].

End Demo.

(** ** Vocabulary of the properties *)

Section Vocabulary.
Context {World Param Page : Type}.

(** The capability each handler passes to [CheckAccess]. *)
Definition capability (v : Verb) : resource.t :=
  match v with
  | VFindByID => resource.AccountRead
  | VList => resource.AccountWrite
  | VCreate => resource.AccountWrite
  | VUpdate => resource.AccountWrite
  | VDelete => resource.AccountWrite
  | VExcel => resource.AccountExcel
  end.

(** The audit event each handler records. *)
Definition audit_of (v : Verb) : event.t :=
  match v with
  | VFindByID => event.AccountView
  | VList => event.AccountList
  | VCreate => event.AccountCreate
  | VUpdate => event.AccountUpdate
  | VDelete => event.AccountDelete
  | VExcel => event.AccountExcel
  end.

(** The service call an audit event describes. *)
Definition describes (k : event.t) (call : @Call Param) : bool :=
  match k, call with
  | event.AccountView, CallFindByID _ => true
  | event.AccountList, CallList _ => true
  | event.AccountCreate, CallCreate _ _ => true
  | event.AccountUpdate, CallSave _ => true
  | event.AccountDelete, CallDelete _ => true
  | event.AccountExcel, CallExcel _ => true
  | _, _ => false
  end.

(** The envelope of the standard builder, with its three fields. *)
Definition envelope (st : option N) (m : option Msg) (d : option (@Payload Page))
  (e : option ErrVal) : @Event Param Page :=
  EvWrite (OutEnvelope st {| Message := m; Data := d; Error := e |}).

(** Events that write the body of the response (headers do not). *)
Definition is_response (e : @Event Param Page) : bool :=
  match e with
  | EvWrite (OutHeader _ _) => false
  | EvWrite _ => true
  | _ => false
  end.

(** Anything written to the response, headers included. *)
Definition is_write (e : @Event Param Page) : bool :=
  match e with
  | EvWrite _ => true
  | _ => false
  end.

Definition is_record (e : @Event Param Page) : bool :=
  match e with
  | EvRecord _ _ => true
  | _ => false
  end.

Definition is_service (e : @Event Param Page) : bool :=
  match e with
  | EvService _ _ => true
  | _ => false
  end.

Definition is_envelope (e : @Event Param Page) : bool :=
  match e with
  | EvWrite (OutEnvelope _ _) => true
  | _ => false
  end.


(** Events that build or serialize the workbook. *)
Definition is_workbook (e : @Event Param Page) : bool :=
  match e with
  | EvWorkbook _ => true
  | EvGenerate _ => true
  | _ => false
  end.

(** A service call that returned success and that the audit event of kind
    [k] describes. *)
Definition described_success (k : event.t) (e : @Event Param Page) : bool :=
  match e with
  | EvService call None => describes k call
  | _ => false
  end.

(** The bodies written to the response, in order. *)
Fixpoint responses (t : list (@Event Param Page)) : list (@Output Page) :=
  match t with
  | [] => []
  | EvWrite (OutHeader _ _) :: t' => responses t'
  | EvWrite o :: t' => o :: responses t'
  | _ :: t' => responses t'
  end.

(** The events of the error paths: access denied, invalid input (an
    identifier or a body that does not parse), not-found and service error. *)
Definition error_event (e : @Event Param Page) : bool :=
  match e with
  | EvCheckAccess _ true => true
  | EvService _ (Some _) => true
  | EvWrite (OutAbortWithStatusJSON _ _) => true
  | EvWrite (OutEnvelope _ body) =>
      match Error body with Some _ => true | None => false end
  | _ => false
  end.

Definition is_4xx (code : N) : bool := ((400 <=? code) && (code <? 500))%N.

(** An explicit status of the 5xx class; a status never set is not one. *)
Definition is_5xx (st : option N) : bool :=
  match st with
  | Some code => ((500 <=? code) && (code <? 600))%N
  | None => false
  end.

End Vocabulary.

(** ** Requests used to run the handlers on the in-memory instance *)

Module Requests.

(** A reader asks for the list. *)
Definition reader_list := Demo.request "reader" "" "" "".

(** A writer updates account 42 with a body that names account 7. *)
Definition update_42_body_7 := Demo.request "writer" "42" "" "{id:7,name:acme}".

(** A writer updates account 42 with a body that has no identifier. *)
Definition update_42 := Demo.request "writer" "42" "" "{name:acme}".

(** A writer updates account 42 with a body that has no name. *)
Definition update_42_no_name := Demo.request "writer" "42" "" "{code:a1}".

(** A writer updates account 5, which is not in the table. *)
Definition update_5 := Demo.request "writer" "5" "" "{name:acme}".

(** A writer deletes account 5, which is not in the table. *)
Definition delete_5 := Demo.request "writer" "5" "" "".

(** A writer deletes with an identifier that is not a number. *)
Definition delete_4x := Demo.request "writer" "4x" "" "".

(** A writer lists with a query the service refuses. *)
Definition list_bad_limit := Demo.request "writer" "" "limit=-1" "".

(** A writer creates an account. *)
Definition create_acme := Demo.request "writer" "" "" "{name:acme}".

(** A writer creates an account with a body that has no name. *)
Definition create_no_name := Demo.request "writer" "" "" "{code:a1}".

(** A writer sends a body that is cut short. *)
Definition create_truncated := Demo.request "writer" "" "" "{name:acme".

Definition update_truncated := Demo.request "writer" "42" "" "{name:acme".

(** An admin exports, with a good and with a refused query. *)
Definition export_all := Demo.request "admin" "" "" "".

Definition export_bad_limit := Demo.request "admin" "" "limit=-1" "".

End Requests.

(** ** Status codes in a trace *)

Section Statuses.
Context {Param Page : Type}.

(** The status code an event puts on the response, when it puts one. *)
Definition status_of (e : @Event Param Page) : option N :=
  match e with
  | EvWrite (OutEnvelope st _) => st
  | EvWrite (OutAbortWithStatusJSON code _) => Some code
  | EvWrite (OutJSON code _) => Some code
  | EvWrite (OutData code _ _) => Some code
  | _ => None
  end.

Definition has_status (code : N) (e : @Event Param Page) : bool :=
  match status_of e with
  | Some n => N.eqb n code
  | None => false
  end.

(** The service calls of a trace, in order. *)
Definition service_calls (t : list (@Event Param Page)) : list (@Event Param Page) :=
  filter is_service t.

End Statuses.

(** ** More requests for the in-memory instance *)

Module Scenarios.

(** A reader fetches account 42, and account 5, which is not in the table. *)
Definition read_42 := Demo.request "reader" "42" "" "".

Definition read_5 := Demo.request "reader" "5" "" "".

(** A writer lists everything. *)
Definition list_all := Demo.request "writer" "" "" "".

(** A writer deletes account 42. *)
Definition delete_42 := Demo.request "writer" "42" "" "".

(** The table once account 42 is deleted. *)
Definition table_without_42 : Demo.World :=
  [ {| model.ID := 7%N; model.Columns := [("name", "seven")] |} ].

(** The table once account 42 is renamed [acme]. *)
Definition table_42_acme : Demo.World :=
  [ {| model.ID := 42%N; model.Columns := [("name", "acme")] |};
    {| model.ID := 7%N; model.Columns := [("name", "seven")] |} ].

End Scenarios.

(** ** Who passes a gate *)

Section Gates.
Context {World Param Page : Type}.




End Gates.

(** A registry that denies the read capability and nothing else: its
    callers hold [AccountWrite] without [AccountRead]. *)
Module WriteOnly.

Definition eng : @core_Engine Demo.World :=
  {| denies w c r :=
       match r with
       | resource.AccountRead => true
       | _ => false
       end |}.

Definition api : @AccountAPI Demo.World Demo.Param Demo.Page :=
  {| Service := Demo.serv; Engine := eng |}.

End WriteOnly.

(** ** Proof steps shared by the properties *)

(** Unfold a handler down to the trace it builds. *)
Ltac unfold_handlers :=
  unfold run, after, handler, FindByID, List, Create, Update, Delete, Excel,
    CheckAccess, invoke, JSON, AbortWithStatusJSON, c_JSON, Header, c_Data,
    Engine_Record, Engine_Debug, build, Generate, emit, envelope in *;
  cbn in *.

(** Case analysis on every collaborator result the handler branches on. *)
Ltac branch :=
  repeat match goal with
    | |- context [match ?x with _ => _ end] => destruct x eqn:?; cbn in *
    | |- context [if ?x then _ else _] => destruct x eqn:?; cbn in *
    end.

(** Case analysis on a membership in a concrete trace. *)
Ltac in_cases H :=
  cbn in H;
  repeat match type of H with
    | _ \/ _ => destruct H as [H | H]
    end;
  try contradiction; try discriminate H.

(** Case analysis on a decomposition [t = pre ++ e :: post] of a concrete
    trace [t]. *)
Ltac split_trace :=
  repeat match goal with
    | H : [] = ?pre ++ _ :: _ |- _ => destruct pre; discriminate H
    | H : _ :: _ = ?pre ++ _ :: _ |- _ =>
        destruct pre; cbn in H; inversion H; subst; clear H
    end.

(** ** Properties of the pipeline *)

Section Properties.
Context {World Param Page : Type}.
Variable pk : @Packages Param.
Variable p : @AccountAPI World Param Page.
Variable c : gin.Context.
Variable w : World.


(** C1: when [CheckAccess] reports denied for the capability of the handler,
    each of the six handlers writes the 403 envelope with the
    permission-denied error and nothing else: no service call is made (the
    world is left as it was) and no audit event is recorded. *)
Theorem access_denied_is_403 (v : Verb) :
  denies (Engine p) w c (capability v) = true ->
  run (handler pk v p c) w =
    [EvCheckAccess (capability v) true;
     envelope (Some http.StatusForbidden) None None
       (Some (OfTerm term.You_dont_have_permission))]
  /\ existsb is_service (run (handler pk v p c) w) = false
  /\ existsb is_record (run (handler pk v p c) w) = false
  /\ after (handler pk v p c) w = w.
Proof.
  intros H.
  destruct v; unfold_handlers; rewrite H; cbn; repeat split; reflexivity.
Qed.




(** C9: when access is granted and the path identifier does not parse,
    [FindByID], [Update] and [Delete] write the envelope with the
    [Invalid_ID] error and no status: [Status] is never called on this
    branch.  No service call is made. *)
Theorem invalid_id_has_no_status (v : Verb) (err : error) :
  In v [VFindByID; VUpdate; VDelete] ->
  denies (Engine p) w c (capability v) = false ->
  StrToRowID pk (gin.Param c "accountID") = Fail err ->
  run (handler pk v p c) w =
    [EvCheckAccess (capability v) false;
     envelope None None None (Some (OfTerm term.Invalid_ID))].
Proof.
  intros Hv Hd Hid.
  in_cases Hv; subst v; unfold_handlers; rewrite Hd; cbn; rewrite Hid;
    reflexivity.
Qed.

(** X20: the other error branches call [Status] before [JSON]: an envelope with
    the permission error has status 403, one with [Record_Not_Found] as its
    error or message has status 404, and an envelope written with no status
    carries [Invalid_ID] or the error a service call returned. *)
Lemma explicit_status_branches (v : Verb) st body :
  In (EvWrite (OutEnvelope st body)) (run (handler pk v p c) w) ->
  (Error body = Some (OfTerm term.You_dont_have_permission) ->
   st = Some http.StatusForbidden)
  /\ (Error body = Some (OfTerm term.Record_Not_Found)
      \/ Message body = Some (Localized term.Record_Not_Found []) ->
      st = Some http.StatusNotFound)
  /\ (st = None ->
      Error body = Some (OfTerm term.Invalid_ID)
      \/ exists call err,
           In (EvService call (Some err)) (run (handler pk v p c) w)
           /\ Error body = Some (OfError err)).
Proof.
  destruct v; unfold_handlers; branch; intros H; in_cases H;
    inversion H; subst; cbn;
    (split; [| split]);
    try (intros [E | E]; discriminate E);
    try (intros E; discriminate E);
    try reflexivity;
    intros _; try (left; reflexivity);
    right; do 2 eexists; (split; [| reflexivity]); cbn; auto.
Qed.

(** C8: when access is granted and [ShouldBindJSON] fails, [Create], and
    [Update] once the path identifier has parsed, abort with status 406 and
    the binding error itself as the body, written by [AbortWithStatusJSON]
    and not by the envelope builder; the service is not called and the world
    is left as it was. *)
Theorem malformed_body_aborts_406 :
  denies (Engine p) w c resource.AccountWrite = false ->
  is_4xx http.StatusNotAcceptable = true
  /\ (forall err,
        ShouldBindJSON pk c model.zero = Fail err ->
        run (Create pk p c) w =
          [EvCheckAccess resource.AccountWrite false;
           EvWrite (OutAbortWithStatusJSON http.StatusNotAcceptable err)]
        /\ after (Create pk p c) w = w)
  /\ (forall id err,
        StrToRowID pk (gin.Param c "accountID") = Ok id ->
        ShouldBindJSON pk c (model.withID model.zero id) = Fail err ->
        run (Update pk p c) w =
          [EvCheckAccess resource.AccountWrite false;
           EvWrite (OutAbortWithStatusJSON http.StatusNotAcceptable err)]
        /\ after (Update pk p c) w = w).
Proof.
  intros Hd. split; [reflexivity |]. split.
  - intros err Hb. unfold_handlers. rewrite Hd. cbn. rewrite Hb.
    split; reflexivity.
  - intros id err Hid Hb. unfold_handlers. rewrite Hd. cbn. rewrite Hid.
    rewrite Hb. split; reflexivity.
Qed.

(** C3: for every handler, an audit event is recorded exactly when the
    service call it describes returned success.  Wherever the recording
    stands in the trace, it is the event of the handler, the successful call
    it describes is before it, nothing has been written to the response yet,
    the response is written after it, and it is the only recording.  On the
    error paths (access denied, invalid identifier or body, not-found,
    service error) nothing is recorded. *)
Theorem audit_iff_described_success (v : Verb) :
  existsb is_record (run (handler pk v p c) w) =
    existsb (described_success (audit_of v)) (run (handler pk v p c) w)
  /\ (forall pre kind data post,
        run (handler pk v p c) w = pre ++ EvRecord kind data :: post ->
        kind = audit_of v
        /\ existsb (described_success kind) pre = true
        /\ existsb is_write pre = false
        /\ existsb is_response post = true
        /\ existsb is_record pre = false
        /\ existsb is_record post = false)
  /\ (existsb error_event (run (handler pk v p c) w) = true ->
      existsb is_record (run (handler pk v p c) w) = false).
Proof.
  split; [| split].
  - destruct v; unfold_handlers; branch; reflexivity.
  - intros pre kind data post H.
    destruct v; unfold_handlers; revert H; branch; intros H; split_trace;
      repeat split; reflexivity.
  - destruct v; unfold_handlers; branch; intros H;
      try reflexivity; discriminate H.
Qed.

(** C4: a [Delete] whose service call returns an error writes one envelope,
    with status 500 and that error.  In [List], [Create] and [Update] a
    service call that returns an error leads to one envelope whose status is
    not of the 5xx class: the error of [List], [Create] and [Save] is written
    with no status set, and a failed [FindByID] of [Update] is written as
    404 with [Record_Not_Found]. *)
Theorem Delete_escalates_service_error :
  (forall call err,
      In (EvService call (Some err)) (run (Delete pk p c) w) ->
      run (Delete pk p c) w =
        [EvCheckAccess resource.AccountWrite false;
         EvService call (Some err);
         envelope (Some http.StatusInternalServerError) None None
           (Some (OfError err))]
      /\ is_5xx (Some http.StatusInternalServerError) = true)
  /\ (forall v call err,
        In v [VList; VCreate; VUpdate] ->
        In (EvService call (Some err)) (run (handler pk v p c) w) ->
        exists st e,
          responses (run (handler pk v p c) w) =
            [OutEnvelope st {| Message := None; Data := None; Error := Some e |}]
          /\ is_5xx st = false
          /\ match call with
             | CallFindByID _ =>
                 st = Some http.StatusNotFound
                 /\ e = OfTerm term.Record_Not_Found
             | _ => st = None /\ e = OfError err
             end).
Proof.
  split.
  - intros call err H. unfold_handlers. revert H. branch; intros H;
      in_cases H; inversion H; subst.
    split; reflexivity.
  - intros v call err Hv H.
    in_cases Hv; subst v; unfold_handlers; revert H; branch; intros H;
      in_cases H; inversion H; subst;
      do 2 eexists; (split; [reflexivity |]); split;
      try reflexivity; split; congruence.
Qed.

(** C6: a [Create] that passes the access check, binds its body to [account]
    and whose service call returns [created] records the create event with
    [nil] and the submitted [account] as its data, in this order, and then
    writes the 200 envelope with [created] as payload. *)
Theorem Create_success (account created : model.Account) (w' : World) :
  denies (Engine p) w c resource.AccountWrite = false ->
  ShouldBindJSON pk c model.zero = Ok account ->
  serv_Create (Service p) account (param_Get pk c thisAccounts) w
    = (Ok created, w') ->
  run (Create pk p c) w =
    [EvCheckAccess resource.AccountWrite false;
     EvService (CallCreate account (param_Get pk c thisAccounts)) None;
     EvRecord event.AccountCreate [None; Some account];
     envelope (Some http.StatusOK)
       (Some (Localized term.V_created_successfully [thisAccount]))
       (Some (OfAccount created)) None]
  /\ after (Create pk p c) w = w'.
Proof.
  intros Hd Hb Hs. unfold_handlers. rewrite Hd. cbn. rewrite Hb. cbn.
  rewrite Hs. cbn. split; reflexivity.
Qed.

(** What [Update] hands to the service once access is granted, the path
    identifier has parsed to [id] and the body has been bound: the entity is
    the body laid over the zero account carrying [id], and both [FindByID]
    and [Save] are keyed by its identifier. *)
Lemma Update_calls (id : RowID) (account : model.Account) :
  denies (Engine p) w c resource.AccountWrite = false ->
  StrToRowID pk (gin.Param c "accountID") = Ok id ->
  ShouldBindJSON pk c (model.withID model.zero id) = Ok account ->
  exists tl,
    run (Update pk p c) w =
      EvCheckAccess resource.AccountWrite false
        :: EvService (CallFindByID (model.ID account))
             (err_of (fst (serv_FindByID (Service p) (model.ID account) w)))
        :: tl
    /\ forall a err, In (EvService (CallSave a) err) tl -> a = account.
Proof.
  intros Hd Hid Hb. unfold_handlers. rewrite Hd. cbn. rewrite Hid, Hb. cbn.
  branch; eexists; (split; [reflexivity |]); intros ? ? H; in_cases H;
    inversion H; reflexivity.
Qed.

(** Binding a body that has an identifier replaces the identifier the
    account had; binding one that has none keeps it. *)
Lemma ShouldBindJSON_identifier (b : model.Body) (account bound : model.Account) :
  decodeJSON pk (gin.Body c) = Ok b ->
  ShouldBindJSON pk c account = Ok bound ->
  model.ID bound =
    match model.bodyID b with
    | Some i => i
    | None => model.ID account
    end.
Proof.
  unfold ShouldBindJSON. intros ->.
  destruct (validate pk (model.overlay b account)); [discriminate |].
  intros H. inversion H. reflexivity.
Qed.

(** C2 (what the code does): when the path identifier parses to [id] and the
    body binds with an identifier [i] of its own, [Update] looks up and saves
    the entity under [i], the identifier of the body, whatever [id] is. *)
Theorem Update_saves_under_body_identifier
  (id i : RowID) (b : model.Body) (account : model.Account) :
  denies (Engine p) w c resource.AccountWrite = false ->
  StrToRowID pk (gin.Param c "accountID") = Ok id ->
  decodeJSON pk (gin.Body c) = Ok b ->
  model.bodyID b = Some i ->
  ShouldBindJSON pk c (model.withID model.zero id) = Ok account ->
  exists tl,
    run (Update pk p c) w =
      EvCheckAccess resource.AccountWrite false
        :: EvService (CallFindByID i)
             (err_of (fst (serv_FindByID (Service p) i w)))
        :: tl
    /\ forall a err, In (EvService (CallSave a) err) tl -> model.ID a = i.
Proof.
  intros Hd Hid Hdec Hi Hb.
  pose proof (ShouldBindJSON_identifier b _ _ Hdec Hb) as Hident.
  rewrite Hi in Hident.
  destruct (Update_calls id account Hd Hid Hb) as [tl [Ht Hsave]].
  rewrite Hident in Ht. exists tl. split; [exact Ht |].
  intros a err H. rewrite (Hsave a err H). exact Hident.
Qed.

(** X19: when the body has no identifier, the entity is looked up and saved
    under the path identifier. *)
Lemma Update_saves_under_path_identifier
  (id : RowID) (b : model.Body) (account : model.Account) :
  denies (Engine p) w c resource.AccountWrite = false ->
  StrToRowID pk (gin.Param c "accountID") = Ok id ->
  decodeJSON pk (gin.Body c) = Ok b ->
  model.bodyID b = None ->
  ShouldBindJSON pk c (model.withID model.zero id) = Ok account ->
  exists tl,
    run (Update pk p c) w =
      EvCheckAccess resource.AccountWrite false
        :: EvService (CallFindByID id)
             (err_of (fst (serv_FindByID (Service p) id w)))
        :: tl
    /\ forall a err, In (EvService (CallSave a) err) tl -> model.ID a = id.
Proof.
  intros Hd Hid Hdec Hi Hb.
  pose proof (ShouldBindJSON_identifier b _ _ Hdec Hb) as Hident.
  rewrite Hi in Hident. cbn in Hident.
  destruct (Update_calls id account Hd Hid Hb) as [tl [Ht Hsave]].
  rewrite Hident in Ht. exists tl. split; [exact Ht |].
  intros a err H. rewrite (Hsave a err H). exact Hident.
Qed.

(** C7: an [Excel] request that passes the access check ends in one of
    three ways.  If the service fetch fails, the 404 envelope with
    [Record_Not_Found] is written.  If the workbook cannot be generated, the
    only thing written is a 500 answer made with [c.JSON] whose message is
    the literal string, not a term; the envelope builder is not used.  If it
    is generated, the two attachment headers and the binary data are written
    and no envelope at all. *)
Theorem Excel_outcomes :
  denies (Engine p) w c resource.AccountExcel = false ->
  (forall err w',
      serv_Excel (Service p) (param_Get pk c thisAccounts) w = (Fail err, w') ->
      run (Excel pk p c) w =
        [EvCheckAccess resource.AccountExcel false;
         EvService (CallExcel (param_Get pk c thisAccounts)) (Some err);
         envelope (Some http.StatusNotFound) None None
           (Some (OfTerm term.Record_Not_Found))])
  /\ (forall accounts w' err,
        serv_Excel (Service p) (param_Get pk c thisAccounts) w
          = (Ok accounts, w') ->
        excel_Generate pk (workbook accounts) = Fail err ->
        responses (run (Excel pk p c) w) =
          [OutJSON http.StatusInternalServerError
             {| Message := Some (Literal "Error in generating Excel file");
                Data := None; Error := None |}]
        /\ is_5xx (Some http.StatusInternalServerError) = true
        /\ existsb is_envelope (run (Excel pk p c) w) = false)
  /\ (forall accounts w' buffer downloadName,
        serv_Excel (Service p) (param_Get pk c thisAccounts) w
          = (Ok accounts, w') ->
        excel_Generate pk (workbook accounts) = Ok (buffer, downloadName) ->
        run (Excel pk p c) w =
          [EvCheckAccess resource.AccountExcel false;
           EvService (CallExcel (param_Get pk c thisAccounts)) None;
           EvRecord event.AccountExcel [];
           EvWorkbook (workbook accounts);
           EvGenerate true;
           EvWrite (OutHeader "Content-Description" "File Transfer");
           EvWrite (OutHeader "Content-Disposition"
                      ("attachment; filename=" ++ downloadName)%string);
           EvWrite (OutData http.StatusOK "application/octet-stream" buffer)]
        /\ existsb is_envelope (run (Excel pk p c) w) = false).
Proof.
  intros Hd. repeat split; intros;
    unfold_handlers; rewrite Hd; cbn;
    repeat match goal with
      | H : serv_Excel _ _ _ = _ |- _ => rewrite H; cbn
      | H : excel_Generate _ _ = _ |- _ => rewrite H; cbn
      end;
    reflexivity.
Qed.

(** In every run of [Excel] the export event is recorded before the
    workbook is built and before it is serialized. *)
Lemma Excel_records_before_workbook pre e post :
  run (Excel pk p c) w = pre ++ e :: post ->
  is_workbook e = true ->
  existsb is_record pre = true.
Proof.
  unfold_handlers. branch; intros H He; split_trace;
    try discriminate He; reflexivity.
Qed.

(** C10: an [Excel] request that passes the access check, whose fetch
    succeeds and whose workbook cannot be generated, has recorded the
    [AccountExcel] event before the workbook was built and serialized, and is
    then answered with the 500 response. *)
Theorem Excel_audit_precedes_generation
  (accounts : list model.Account) (w' : World) (err : error) :
  denies (Engine p) w c resource.AccountExcel = false ->
  serv_Excel (Service p) (param_Get pk c thisAccounts) w = (Ok accounts, w') ->
  excel_Generate pk (workbook accounts) = Fail err ->
  run (Excel pk p c) w =
    [EvCheckAccess resource.AccountExcel false;
     EvService (CallExcel (param_Get pk c thisAccounts)) None;
     EvRecord event.AccountExcel [];
     EvWorkbook (workbook accounts);
     EvGenerate false;
     EvWrite (OutJSON http.StatusInternalServerError
                {| Message := Some (Literal "Error in generating Excel file");
                   Data := None; Error := None |})].
Proof.
  intros Hd Hs Hg. unfold_handlers. rewrite Hd. cbn. rewrite Hs. cbn.
  rewrite Hg. reflexivity.
Qed.

End Properties.

(** ** The properties on the in-memory instance *)

(** A reader who asks for the list is denied. *)
Lemma access_denied_is_403_witness :
  denies (Engine Demo.api) Demo.table Requests.reader_list (capability VList)
    = true
  /\ run (handler (Demo.pk true) VList Demo.api Requests.reader_list) Demo.table =
       [EvCheckAccess resource.AccountWrite true;
        envelope (Some 403%N) None None
          (Some (OfTerm term.You_dont_have_permission))]
  /\ after (handler (Demo.pk true) VList Demo.api Requests.reader_list) Demo.table
       = Demo.table.
Proof.
  split; [reflexivity |].
  destruct (access_denied_is_403 (Demo.pk true) Demo.api Requests.reader_list
              Demo.table VList eq_refl) as [Ht [_ [_ Hw]]].
  split; [exact Ht | exact Hw].
Defined.



(** A delete whose identifier is [4x]. *)
Lemma invalid_id_has_no_status_witness :
  StrToRowID (Demo.pk true) (gin.Param Requests.delete_4x "accountID")
    = Fail "invalid syntax"
  /\ run (handler (Demo.pk true) VDelete Demo.api Requests.delete_4x) Demo.table =
       [EvCheckAccess resource.AccountWrite false;
        envelope None None None (Some (OfTerm term.Invalid_ID))].
Proof.
  split; [reflexivity |].
  apply (invalid_id_has_no_status (Demo.pk true) Demo.api Requests.delete_4x
           Demo.table VDelete "invalid syntax").
  - cbn. right. right. left. reflexivity.
  - reflexivity.
  - reflexivity.
Defined.

(** A create and an update whose body is cut short. *)
Lemma malformed_body_aborts_406_witness :
  ShouldBindJSON (Demo.pk true) Requests.create_truncated model.zero
    = Fail "unexpected end of JSON input"
  /\ run (Create (Demo.pk true) Demo.api Requests.create_truncated) Demo.table =
       [EvCheckAccess resource.AccountWrite false;
        EvWrite (OutAbortWithStatusJSON 406 "unexpected end of JSON input")]
  /\ run (Update (Demo.pk true) Demo.api Requests.update_truncated) Demo.table =
       [EvCheckAccess resource.AccountWrite false;
        EvWrite (OutAbortWithStatusJSON 406 "unexpected end of JSON input")].
Proof.
  split; [reflexivity |]. split.
  - destruct (malformed_body_aborts_406 (Demo.pk true) Demo.api
                Requests.create_truncated Demo.table eq_refl) as [_ [H _]].
    exact (proj1 (H "unexpected end of JSON input" eq_refl)).
  - destruct (malformed_body_aborts_406 (Demo.pk true) Demo.api
                Requests.update_truncated Demo.table eq_refl) as [_ [_ H]].
    exact (proj1 (H 42%N "unexpected end of JSON input" eq_refl eq_refl)).
Defined.

(** The trace of a writer updating account 42 with a body that has no
    identifier. *)
Example Update_42_trace :
  run (Update (Demo.pk true) Demo.api Requests.update_42) Demo.table =
    [EvCheckAccess resource.AccountWrite false;
     EvService (CallFindByID 42%N) None;
     EvService
       (CallSave {| model.ID := 42%N; model.Columns := [("name", "acme")] |})
       None;
     EvRecord event.AccountUpdate
       [Some {| model.ID := 42%N; model.Columns := [("name", "forty-two")] |};
        Some {| model.ID := 42%N; model.Columns := [("name", "acme")] |}];
     envelope (Some 200%N)
       (Some (Localized term.V_updated_successfully ["account"]))
       (Some (OfAccount
                {| model.ID := 42%N; model.Columns := [("name", "acme")] |}))
       None].
Proof. reflexivity. Qed.

(** In that run the update event stands after the successful [Save] and
    before the envelope. *)
Lemma audit_iff_described_success_witness :
  existsb is_record
    (run (handler (Demo.pk true) VUpdate Demo.api Requests.update_42) Demo.table)
    = true
  /\ existsb (@described_success Demo.Param Demo.Page event.AccountUpdate)
       [EvCheckAccess resource.AccountWrite false;
        EvService (CallFindByID 42%N) None;
        EvService
          (CallSave {| model.ID := 42%N; model.Columns := [("name", "acme")] |})
          None] = true
  /\ existsb (@error_event Demo.Param Demo.Page)
       (run (handler (Demo.pk true) VUpdate Demo.api Requests.update_5) Demo.table)
       = true
  /\ existsb is_record
       (run (handler (Demo.pk true) VUpdate Demo.api Requests.update_5) Demo.table)
       = false.
Proof.
  split; [reflexivity |]. split; [| split; [reflexivity |]].
  - destruct (audit_iff_described_success (Demo.pk true) Demo.api
                Requests.update_42 Demo.table VUpdate) as [_ [H _]].
    exact (proj1 (proj2
             (H [EvCheckAccess resource.AccountWrite false;
                 EvService (CallFindByID 42%N) None;
                 EvService
                   (CallSave {| model.ID := 42%N;
                                model.Columns := [("name", "acme")] |})
                   None]
                _ _ _ Update_42_trace))).
  - destruct (audit_iff_described_success (Demo.pk true) Demo.api
                Requests.update_5 Demo.table VUpdate) as [_ [_ H]].
    exact (H eq_refl).
Defined.

(** Deleting account 5, which does not exist, is answered 500; listing with
    a refused query, creating or saving without a name are answered with no
    status; updating account 5 is answered 404. *)
Lemma Delete_escalates_service_error_witness :
  run (Delete (Demo.pk true) Demo.api Requests.delete_5) Demo.table =
    [EvCheckAccess resource.AccountWrite false;
     EvService (CallDelete 5%N) (Some "record not found");
     envelope (Some 500%N) None None (Some (OfError "record not found"))]
  /\ (exists st e,
        responses (run (handler (Demo.pk true) VList Demo.api
                          Requests.list_bad_limit) Demo.table) =
          [OutEnvelope st {| Message := None; Data := None; Error := Some e |}]
        /\ is_5xx st = false
        /\ st = None /\ e = OfError "invalid limit")
  /\ (exists st e,
        responses (run (handler (Demo.pk true) VUpdate Demo.api
                          Requests.update_5) Demo.table) =
          [OutEnvelope st {| Message := None; Data := None; Error := Some e |}]
        /\ is_5xx st = false
        /\ st = Some 404%N /\ e = OfTerm term.Record_Not_Found).
Proof.
  destruct (Delete_escalates_service_error (Demo.pk true) Demo.api
              Requests.delete_5 Demo.table) as [Hdel _].
  destruct (Delete_escalates_service_error (Demo.pk true) Demo.api
              Requests.list_bad_limit Demo.table) as [_ Hlist].
  destruct (Delete_escalates_service_error (Demo.pk true) Demo.api
              Requests.update_5 Demo.table) as [_ Hupd].
  split; [| split].
  - apply (Hdel (CallDelete 5%N) "record not found").
    cbn. right. left. reflexivity.
  - apply (Hlist VList (CallList "limit=-1") "invalid limit").
    + cbn. left. reflexivity.
    + cbn. right. left. reflexivity.
  - apply (Hupd VUpdate (CallFindByID 5%N) "record not found").
    + cbn. right. right. left. reflexivity.
    + cbn. right. left. reflexivity.
Defined.

(** A writer creates [acme]: the table assigns it the identifier 43. *)
Lemma Create_success_witness :
  ShouldBindJSON (Demo.pk true) Requests.create_acme model.zero =
    Ok {| model.ID := 0%N; model.Columns := [("name", "acme")] |}
  /\ run (Create (Demo.pk true) Demo.api Requests.create_acme) Demo.table =
       [EvCheckAccess resource.AccountWrite false;
        EvService
          (CallCreate {| model.ID := 0%N; model.Columns := [("name", "acme")] |}
             "")
          None;
        EvRecord event.AccountCreate
          [None;
           Some {| model.ID := 0%N; model.Columns := [("name", "acme")] |}];
        envelope (Some 200%N)
          (Some (Localized term.V_created_successfully ["account"]))
          (Some (OfAccount
                   {| model.ID := 43%N; model.Columns := [("name", "acme")] |}))
          None].
Proof.
  split; [reflexivity |].
  exact (proj1 (Create_success (Demo.pk true) Demo.api Requests.create_acme
                  Demo.table
                  {| model.ID := 0%N; model.Columns := [("name", "acme")] |}
                  {| model.ID := 43%N; model.Columns := [("name", "acme")] |}
                  (Demo.table ++
                     [{| model.ID := 43%N; model.Columns := [("name", "acme")] |}])
                  eq_refl eq_refl eq_refl)).
Defined.

(** An admin exports: with a refused query, with a workbook that cannot be
    written, and with one that can. *)
Lemma Excel_outcomes_witness :
  run (Excel (Demo.pk true) Demo.api Requests.export_bad_limit) Demo.table =
    [EvCheckAccess resource.AccountExcel false;
     EvService (CallExcel "limit=-1") (Some "invalid limit");
     envelope (Some 404%N) None None (Some (OfTerm term.Record_Not_Found))]
  /\ responses (run (Excel (Demo.pk false) Demo.api Requests.export_all)
                  Demo.table) =
       [OutJSON 500
          {| Message := Some (Literal "Error in generating Excel file");
             Data := None; Error := None |}]
  /\ responses (run (Excel (Demo.pk true) Demo.api Requests.export_all)
                  Demo.table) =
       [OutData 200 "application/octet-stream" [Byte.x50; Byte.x4b]].
Proof.
  destruct (Excel_outcomes (Demo.pk true) Demo.api Requests.export_bad_limit
              Demo.table eq_refl) as [Hfetch _].
  destruct (Excel_outcomes (Demo.pk false) Demo.api Requests.export_all
              Demo.table eq_refl) as [_ [Hbuild _]].
  destruct (Excel_outcomes (Demo.pk true) Demo.api Requests.export_all
              Demo.table eq_refl) as [_ [_ Hdata]].
  split; [| split].
  - exact (Hfetch "invalid limit" Demo.table eq_refl).
  - exact (proj1 (Hbuild Demo.table Demo.table "cannot write the workbook"
                    eq_refl eq_refl)).
  - rewrite (proj1 (Hdata Demo.table Demo.table [Byte.x50; Byte.x4b]
                      "account.xlsx" eq_refl eq_refl)).
    reflexivity.
Defined.

(** An export whose workbook cannot be written: the export event is in the
    trace all the same, before the 500 answer. *)
Lemma Excel_audit_precedes_generation_witness :
  exists pre post,
    run (Excel (Demo.pk false) Demo.api Requests.export_all) Demo.table =
      pre ++ EvRecord event.AccountExcel [] :: EvWorkbook (workbook Demo.table)
        :: EvGenerate false :: post
    /\ responses post =
         [OutJSON 500
            {| Message := Some (Literal "Error in generating Excel file");
               Data := None; Error := None |}].
Proof.
  exists [EvCheckAccess resource.AccountExcel false;
          EvService (CallExcel "") None].
  eexists. split.
  - exact (Excel_audit_precedes_generation (Demo.pk false) Demo.api
             Requests.export_all Demo.table Demo.table Demo.table
             "cannot write the workbook" eq_refl eq_refl eq_refl).
  - reflexivity.
Defined.

(** The request of the scenario: path identifier 42, body identifier 7. *)
Example Update_42_body_7_trace :
  run (Update (Demo.pk true) Demo.api Requests.update_42_body_7) Demo.table =
    [EvCheckAccess resource.AccountWrite false;
     EvService (CallFindByID 7%N) None;
     EvService
       (CallSave {| model.ID := 7%N; model.Columns := [("name", "acme")] |})
       None;
     EvRecord event.AccountUpdate
       [Some {| model.ID := 7%N; model.Columns := [("name", "seven")] |};
        Some {| model.ID := 7%N; model.Columns := [("name", "acme")] |}];
     envelope (Some 200%N)
       (Some (Localized term.V_updated_successfully ["account"]))
       (Some (OfAccount
                {| model.ID := 7%N; model.Columns := [("name", "acme")] |}))
       None].
Proof. reflexivity. Qed.

(** After it, account 42 is as it was and account 7 has been overwritten. *)
Example Update_42_body_7_world :
  after (Update (Demo.pk true) Demo.api Requests.update_42_body_7) Demo.table =
    [ {| model.ID := 7%N; model.Columns := [("name", "acme")] |};
      {| model.ID := 42%N; model.Columns := [("name", "forty-two")] |} ].
Proof. reflexivity. Qed.

(** On that request the path identifier parses to 42, the body carries 7,
    and the entity is looked up and saved under 7. *)
Lemma Update_saves_under_body_identifier_witness :
  StrToRowID (Demo.pk true) (gin.Param Requests.update_42_body_7 "accountID")
    = Ok 42%N
  /\ decodeJSON (Demo.pk true) (gin.Body Requests.update_42_body_7) =
       Ok {| model.bodyID := Some 7%N; model.bodyColumns := [("name", "acme")] |}
  /\ exists tl,
       run (Update (Demo.pk true) Demo.api Requests.update_42_body_7) Demo.table =
         EvCheckAccess resource.AccountWrite false
           :: EvService (CallFindByID 7%N) None :: tl
       /\ forall a err, In (EvService (CallSave a) err) tl -> model.ID a = 7%N.
Proof.
  split; [reflexivity |]. split; [reflexivity |].
  exact (Update_saves_under_body_identifier (Demo.pk true) Demo.api
           Requests.update_42_body_7 Demo.table 42%N 7%N
           {| model.bodyID := Some 7%N; model.bodyColumns := [("name", "acme")] |}
           {| model.ID := 7%N; model.Columns := [("name", "acme")] |}
           eq_refl eq_refl eq_refl eq_refl eq_refl).
Defined.

(** ** What every handler keeps, whatever the request *)

Section Invariants.
Context {World Param Page : Type}.
Variable pk : @Packages Param.
Variable p : @AccountAPI World Param Page.
Variable c : gin.Context.
Variable w : World.

(** X1: every handler, on every request, writes exactly one response body,
    and writing it is the last thing the handler does. *)
Theorem one_response_written_last (v : Verb) :
  exists o,
    responses (run (handler pk v p c) w) = [o]
    /\ last (run (handler pk v p c) w) (EvDebug None) = EvWrite o.
Proof.
  destruct v; unfold_handlers; branch; eexists; split; reflexivity.
Qed.

(** X2: a handler answers 403 exactly when the registry denies the
    capability of the handler in the world the request arrives in. *)
Theorem forbidden_iff_denied (v : Verb) :
  existsb (has_status http.StatusForbidden) (run (handler pk v p c) w)
    = denies (Engine p) w c (capability v).
Proof.
  destruct v; unfold_handlers; branch; reflexivity.
Qed.

(** X3: a handler puts status 200 on the response only after it has
    recorded its audit event; for the five handlers other than [Excel] the
    converse holds too, a recorded event is always followed by a 200. *)
Theorem ok_status_follows_record (v : Verb) :
  (forall pre e post,
      run (handler pk v p c) w = pre ++ e :: post ->
      has_status http.StatusOK e = true ->
      existsb is_record pre = true)
  /\ (v <> VExcel ->
      existsb is_record (run (handler pk v p c) w)
        = existsb (has_status http.StatusOK) (run (handler pk v p c) w)).
Proof.
  split.
  - intros pre e post H He.
    destruct v; unfold_handlers; revert H; branch; intros H; split_trace;
      try reflexivity; vm_compute in He; discriminate He.
  - intros Hv.
    destruct v; try (exfalso; apply Hv; reflexivity);
      unfold_handlers; branch; reflexivity.
Qed.

(** X4: in every envelope a handler writes, status 200 and the absence of
    an error go together; an envelope with an error has no payload, and a
    200 envelope has a localized message. *)
Theorem envelope_shape (v : Verb) st body :
  In (EvWrite (OutEnvelope st body)) (run (handler pk v p c) w) ->
  (st = Some http.StatusOK <-> Error body = None)
  /\ (Error body <> None -> Data body = None)
  /\ (st = Some http.StatusOK ->
      exists t args, Message body = Some (Localized t args)).
Proof.
  destruct v; unfold_handlers; branch; intros H; in_cases H;
    inversion H; subst; cbn;
    (split; [split; intros E; (discriminate E || reflexivity) |]);
    (split; [intros E; (reflexivity || (exfalso; apply E; reflexivity)) |]);
    intros E; try discriminate E; do 2 eexists; reflexivity.
Qed.

(** X5: the five handlers other than [Excel] answer only through the
    envelope builder, except for the 406 of a body that does not bind, which
    only [Create] and [Update] can give. *)
Theorem crud_answers_by_envelope (v : Verb) o :
  v <> VExcel ->
  In (EvWrite o) (run (handler pk v p c) w) ->
  (exists st body, o = OutEnvelope st body)
  \/ ((v = VCreate \/ v = VUpdate)
      /\ exists err, o = OutAbortWithStatusJSON http.StatusNotAcceptable err).
Proof.
  intros Hv.
  destruct v; try (exfalso; apply Hv; reflexivity);
    unfold_handlers; branch; intros H; in_cases H; inversion H; subst;
    first [ left; do 2 eexists; reflexivity
          | right; split; [auto | eexists; reflexivity] ].
Qed.

(** X6: no handler calls the service more than once, except [Update],
    which calls it at most twice. *)
Theorem service_call_budget (v : Verb) :
  length (service_calls (run (handler pk v p c) w))
    <= match v with VUpdate => 2 | _ => 1 end.
Proof.
  destruct v; unfold_handlers; branch; cbn; lia.
Qed.

(** X7: a handler stops at the first service call that returns an error:
    after it there is no further service call, no audit record and no
    workbook, only the one response. *)
Theorem stops_at_first_service_error (v : Verb) pre call err post :
  run (handler pk v p c) w = pre ++ EvService call (Some err) :: post ->
  existsb is_service post = false
  /\ existsb is_record post = false
  /\ existsb is_workbook post = false
  /\ exists o, responses post = [o].
Proof.
  destruct v; unfold_handlers; branch; intros H; split_trace;
    try discriminate;
    repeat split; try reflexivity; eexists; reflexivity.
Qed.

End Invariants.

(** ** The remaining branches of the handlers *)

Section Outcomes.
Context {World Param Page : Type}.
Variable pk : @Packages Param.
Variable p : @AccountAPI World Param Page.
Variable c : gin.Context.
Variable w : World.

(** X8: when [FindByID] passes the gate, the identifier parses and the
    service returns an error, the answer is 404 and carries both the error
    of the service and the [Record_Not_Found] message; nothing is recorded. *)
Theorem FindByID_not_found (id : RowID) (err : error) (w' : World) :
  denies (Engine p) w c resource.AccountRead = false ->
  StrToRowID pk (gin.Param c "accountID") = Ok id ->
  serv_FindByID (Service p) id w = (Fail err, w') ->
  run (FindByID pk p c) w =
    [EvCheckAccess resource.AccountRead false;
     EvService (CallFindByID id) (Some err);
     envelope (Some http.StatusNotFound)
       (Some (Localized term.Record_Not_Found []))
       None (Some (OfError err))]
  /\ after (FindByID pk p c) w = w'.
Proof.
  intros Hd Hid Hs. unfold_handlers. rewrite Hd. cbn. rewrite Hid. cbn.
  rewrite Hs. split; reflexivity.
Qed.

(** X9: when the service finds the account, [FindByID] records the view
    event with no snapshot and answers 200 with the account found. *)
Theorem FindByID_success (id : RowID) (account : model.Account) (w' : World) :
  denies (Engine p) w c resource.AccountRead = false ->
  StrToRowID pk (gin.Param c "accountID") = Ok id ->
  serv_FindByID (Service p) id w = (Ok account, w') ->
  run (FindByID pk p c) w =
    [EvCheckAccess resource.AccountRead false;
     EvService (CallFindByID id) None;
     EvRecord event.AccountView [];
     envelope (Some http.StatusOK)
       (Some (Localized term.V_info [thisAccount]))
       (Some (OfAccount account)) None]
  /\ after (FindByID pk p c) w = w'.
Proof.
  intros Hd Hid Hs. unfold_handlers. rewrite Hd. cbn. rewrite Hid. cbn.
  rewrite Hs. split; reflexivity.
Qed.

(** X10: once [List] has passed the gate it calls the service with the
    parameters resolved under the name [accounts] and hands the error the
    call returned to [Debug], [nil] included, before it looks at it.  On
    success it then records the list event and answers 200 with the page; on
    error it answers with that error and no status. *)
Theorem List_outcomes :
  denies (Engine p) w c resource.AccountWrite = false ->
  (forall data w',
      serv_List (Service p) (param_Get pk c "accounts") w = (Ok data, w') ->
      run (List pk p c) w =
        [EvCheckAccess resource.AccountWrite false;
         EvService (CallList (param_Get pk c "accounts")) None;
         EvDebug None;
         EvRecord event.AccountList [];
         envelope (Some http.StatusOK)
           (Some (Localized term.List_of_V ["accounts"]))
           (Some (OfPage data)) None]
      /\ after (List pk p c) w = w')
  /\ (forall err w',
        serv_List (Service p) (param_Get pk c "accounts") w = (Fail err, w') ->
        run (List pk p c) w =
          [EvCheckAccess resource.AccountWrite false;
           EvService (CallList (param_Get pk c "accounts")) (Some err);
           EvDebug (Some err);
           envelope None None None (Some (OfError err))]
        /\ after (List pk p c) w = w').
Proof.
  intros Hd. split; intros ? w' Hs; unfold_handlers; rewrite Hd; cbn;
    unfold thisAccounts; rewrite Hs; split; reflexivity.
Qed.

(** X11: a successful [Update] calls [Save] in the world [FindByID] left.
    The event it records has the account [FindByID] returned, fetched before
    the save, as its first snapshot and the account bound from the request,
    not the one [Save] returned, as its second; the 200 envelope carries the
    account [Save] returned. *)
Theorem Update_success
  (id : RowID) (account accountBefore accountUpdated : model.Account)
  (w1 w2 : World) :
  denies (Engine p) w c resource.AccountWrite = false ->
  StrToRowID pk (gin.Param c "accountID") = Ok id ->
  ShouldBindJSON pk c (model.withID model.zero id) = Ok account ->
  serv_FindByID (Service p) (model.ID account) w = (Ok accountBefore, w1) ->
  serv_Save (Service p) account w1 = (Ok accountUpdated, w2) ->
  run (Update pk p c) w =
    [EvCheckAccess resource.AccountWrite false;
     EvService (CallFindByID (model.ID account)) None;
     EvService (CallSave account) None;
     EvRecord event.AccountUpdate [Some accountBefore; Some account];
     envelope (Some http.StatusOK)
       (Some (Localized term.V_updated_successfully [thisAccount]))
       (Some (OfAccount accountUpdated)) None]
  /\ after (Update pk p c) w = w2.
Proof.
  intros Hd Hid Hb Hf Hs. unfold_handlers. rewrite Hd. cbn.
  rewrite Hid, Hb. cbn. rewrite Hf. cbn. rewrite Hs. split; reflexivity.
Qed.

(** X12: when the lookup of [Update] fails, [Save] is not called: the
    answer is 404 with [Record_Not_Found] in place of the error the service
    returned, and the world is the one [FindByID] left. *)
Theorem Update_not_found
  (id : RowID) (account : model.Account) (err : error) (w1 : World) :
  denies (Engine p) w c resource.AccountWrite = false ->
  StrToRowID pk (gin.Param c "accountID") = Ok id ->
  ShouldBindJSON pk c (model.withID model.zero id) = Ok account ->
  serv_FindByID (Service p) (model.ID account) w = (Fail err, w1) ->
  run (Update pk p c) w =
    [EvCheckAccess resource.AccountWrite false;
     EvService (CallFindByID (model.ID account)) (Some err);
     envelope (Some http.StatusNotFound) None None
       (Some (OfTerm term.Record_Not_Found))]
  /\ after (Update pk p c) w = w1.
Proof.
  intros Hd Hid Hb Hf. unfold_handlers. rewrite Hd. cbn.
  rewrite Hid, Hb. cbn. rewrite Hf. split; reflexivity.
Qed.

(** X13: a successful [Delete] records one delete event whose only
    snapshot is the account the service returned, and answers 200 with the
    deleted message and no payload. *)
Theorem Delete_success (id : RowID) (deleted : model.Account) (w' : World) :
  denies (Engine p) w c resource.AccountWrite = false ->
  StrToRowID pk (gin.Param c "accountID") = Ok id ->
  serv_Delete (Service p) id w = (Ok deleted, w') ->
  run (Delete pk p c) w =
    [EvCheckAccess resource.AccountWrite false;
     EvService (CallDelete id) None;
     EvRecord event.AccountDelete [Some deleted];
     envelope (Some http.StatusOK)
       (Some (Localized term.V_deleted_successfully [thisAccount]))
       None None]
  /\ after (Delete pk p c) w = w'.
Proof.
  intros Hd Hid Hs. unfold_handlers. rewrite Hd. cbn. rewrite Hid. cbn.
  rewrite Hs. split; reflexivity.
Qed.

(** X14: in every run of [Excel], a workbook is built at most once, only
    after the fetch has succeeded and the export event has been recorded,
    and the rows written into it are the accounts the service returned. *)
Theorem Excel_workbook_rows pre ops post :
  run (Excel pk p c) w = pre ++ EvWorkbook ops :: post ->
  (exists accounts,
      fst (serv_Excel (Service p) (param_Get pk c thisAccounts) w) = Ok accounts
      /\ ops = workbook accounts
      /\ In (excel.WriteData accounts) ops)
  /\ existsb is_record pre = true
  /\ existsb is_workbook pre = false
  /\ existsb is_write pre = false.
Proof.
  unfold_handlers. branch; intros H; split_trace.
  all: split; [| repeat split; reflexivity].
  all: eexists; split; [reflexivity |]; split; [reflexivity |].
  all: unfold workbook; cbn; repeat (first [left; reflexivity | right]).
Qed.

End Outcomes.

(** ** What the handlers ask of the service *)

Section Calls.
Context {World Param Page : Type}.
Variable pk : @Packages Param.
Variable p : @AccountAPI World Param Page.
Variable c : gin.Context.
Variable w : World.

(** X15: each handler calls only the service method its audit event
    describes; [Update] alone also calls [FindByID].  So [FindByID], [List]
    and [Excel] never call [Create], [Save] or [Delete], and [Delete] does
    not look the account up first. *)
Theorem calls_only_its_own_service (v : Verb) call err :
  In (EvService call err) (run (handler pk v p c) w) ->
  describes (audit_of v) call = true
  \/ (v = VUpdate /\ exists id, call = CallFindByID id).
Proof.
  destruct v; unfold_handlers; branch; intros H; in_cases H;
    inversion H; subst;
    first [ left; reflexivity | right; split; [reflexivity | eexists; reflexivity] ].
Qed.

(** X16: [FindByID] and [Delete] call the service on the identifier parsed
    from the path and on nothing else; the body of the request plays no
    part. *)
Theorem path_identifier_is_used (v : Verb) call err :
  In v [VFindByID; VDelete] ->
  In (EvService call err) (run (handler pk v p c) w) ->
  exists id,
    StrToRowID pk (gin.Param c "accountID") = Ok id
    /\ (call = CallFindByID id \/ call = CallDelete id).
Proof.
  intros Hv. in_cases Hv; subst v; unfold_handlers; branch; intros H;
    in_cases H; inversion H; subst; eexists; (split; [reflexivity |]); auto.
Qed.

(** X17: in every run of [Update] the account saved is the one bound from
    the request, and it is saved under the identifier that was looked up:
    [FindByID] and [Save] never disagree on the identifier. *)
Theorem Update_lookup_and_save_agree id account err1 err2 :
  In (EvService (CallFindByID id) err1) (run (Update pk p c) w) ->
  In (EvService (CallSave account) err2) (run (Update pk p c) w) ->
  model.ID account = id
  /\ err1 = None
  /\ exists pid,
       StrToRowID pk (gin.Param c "accountID") = Ok pid
       /\ ShouldBindJSON pk c (model.withID model.zero pid) = Ok account.
Proof.
  unfold_handlers; branch; intros H1 H2; in_cases H1; in_cases H2;
    inversion H1; inversion H2; subst;
    (split; [reflexivity |]); (split; [reflexivity |]);
    eexists; (split; [reflexivity | assumption]).
Qed.

(** X18: [Create] hands the service the account bound from the body over
    the zero account, with the parameters resolved under the name
    [accounts]: its identifier is the one of the body, or 0 when the body
    has none, and the path plays no part. *)
Theorem Create_calls (b : model.Body) call err :
  decodeJSON pk (gin.Body c) = Ok b ->
  In (EvService call err) (run (Create pk p c) w) ->
  exists account,
    call = CallCreate account (param_Get pk c "accounts")
    /\ ShouldBindJSON pk c model.zero = Ok account
    /\ model.ID account =
         match model.bodyID b with
         | Some i => i
         | None => 0%N
         end.
Proof.
  intros Hdec. unfold_handlers. branch; intros H; in_cases H;
    inversion H; subst; eexists; (split; [reflexivity |]);
    (split; [reflexivity |]).
  all: match goal with
    | Hd : decodeJSON _ _ = Ok ?b0,
      Hb : ShouldBindJSON _ _ _ = Ok _,
      Ho : model.bodyID ?b0 = _ |- _ =>
        pose proof (ShouldBindJSON_identifier _ _ b0 _ _ Hd Hb) as Hi;
        rewrite Ho in Hi; exact Hi
    end.
Qed.

End Calls.

(** ** The further properties on the in-memory instance *)

(** A writer renames account 42: the event is recorded and 200 is written. *)
Lemma ok_status_follows_record_witness :
  existsb is_record
    (run (handler (Demo.pk true) VUpdate Demo.api Requests.update_42) Demo.table)
    = true
  /\ existsb (has_status 200)
       (run (handler (Demo.pk true) VUpdate Demo.api Requests.update_42)
          Demo.table)
       = true.
Proof.
  split; [reflexivity |].
  destruct (ok_status_follows_record (Demo.pk true) Demo.api Requests.update_42
              Demo.table VUpdate) as [_ H].
  assert (Hv : VUpdate <> VExcel) by discriminate.
  exact (eq_trans (eq_sym (H Hv)) eq_refl).
Defined.

(** The 200 envelope of a reader fetching account 42. *)
Lemma envelope_shape_witness :
  In (envelope (Some 200%N) (Some (Localized term.V_info ["account"]))
        (Some (OfAccount
                 {| model.ID := 42%N; model.Columns := [("name", "forty-two")] |}))
        None)
    (run (handler (Demo.pk true) VFindByID Demo.api Scenarios.read_42)
       Demo.table)
  /\ (Some 200%N = Some http.StatusOK <-> @None (@ErrVal) = None)
  /\ exists t args,
       Some (Localized term.V_info ["account"]) = Some (Localized t args).
Proof.
  assert (Hin :
    In (envelope (Some 200%N) (Some (Localized term.V_info ["account"]))
          (Some (OfAccount
                   {| model.ID := 42%N;
                      model.Columns := [("name", "forty-two")] |}))
          None)
      (run (handler (Demo.pk true) VFindByID Demo.api Scenarios.read_42)
         Demo.table)).
  { cbn. right. right. right. left. reflexivity. }
  split; [exact Hin |].
  destruct (envelope_shape (Demo.pk true) Demo.api Scenarios.read_42 Demo.table
              VFindByID _ _ Hin) as [H1 [_ H3]].
  split; [exact H1 | exact (H3 eq_refl)].
Defined.

(** The answer to a create whose body is cut short is the 406 abort. *)
Lemma crud_answers_by_envelope_witness :
  In (EvWrite (OutAbortWithStatusJSON 406 "unexpected end of JSON input"))
    (run (handler (Demo.pk true) VCreate Demo.api Requests.create_truncated)
       Demo.table)
  /\ ((exists st (body : @Result Demo.Page),
         OutAbortWithStatusJSON 406 "unexpected end of JSON input"
           = OutEnvelope st body)
      \/ ((VCreate = VCreate \/ VCreate = VUpdate)
          /\ exists err,
               @OutAbortWithStatusJSON Demo.Page 406
                 "unexpected end of JSON input"
                 = OutAbortWithStatusJSON http.StatusNotAcceptable err)).
Proof.
  assert (Hin :
    In (EvWrite (OutAbortWithStatusJSON 406 "unexpected end of JSON input"))
      (run (handler (Demo.pk true) VCreate Demo.api Requests.create_truncated)
         Demo.table)).
  { cbn. right. left. reflexivity. }
  split; [exact Hin |].
  apply (crud_answers_by_envelope (Demo.pk true) Demo.api
           Requests.create_truncated Demo.table VCreate).
  - discriminate.
  - exact Hin.
Defined.

(** A save without a name fails after the lookup: only the envelope
    follows. *)
Lemma stops_at_first_service_error_witness :
  run (handler (Demo.pk true) VUpdate Demo.api Requests.update_42_no_name)
    Demo.table =
    [EvCheckAccess resource.AccountWrite false;
     EvService (CallFindByID 42%N) None]
    ++ EvService
         (CallSave {| model.ID := 42%N; model.Columns := [("code", "a1")] |})
         (Some "name is required")
    :: [envelope None None None (Some (OfError "name is required"))]
  /\ exists o : @Output Demo.Page,
       @responses Demo.Param Demo.Page
         [envelope None None None (Some (OfError "name is required"))] = [o].
Proof.
  split; [reflexivity |].
  destruct (stops_at_first_service_error (Demo.pk true) Demo.api
              Requests.update_42_no_name Demo.table VUpdate
              [EvCheckAccess resource.AccountWrite false;
               EvService (CallFindByID 42%N) None]
              (CallSave {| model.ID := 42%N; model.Columns := [("code", "a1")] |})
              "name is required"
              [envelope None None None (Some (OfError "name is required"))]
              eq_refl) as [_ [_ [_ H]]].
  exact H.
Defined.

(** A reader fetches account 5, which is not in the table. *)
Lemma FindByID_not_found_witness :
  run (FindByID (Demo.pk true) Demo.api Scenarios.read_5) Demo.table =
    [EvCheckAccess resource.AccountRead false;
     EvService (CallFindByID 5%N) (Some "record not found");
     envelope (Some 404%N) (Some (Localized term.Record_Not_Found []))
       None (Some (OfError "record not found"))].
Proof.
  exact (proj1 (FindByID_not_found (Demo.pk true) Demo.api Scenarios.read_5
                  Demo.table 5%N "record not found" Demo.table
                  eq_refl eq_refl eq_refl)).
Defined.

(** A reader fetches account 42. *)
Lemma FindByID_success_witness :
  run (FindByID (Demo.pk true) Demo.api Scenarios.read_42) Demo.table =
    [EvCheckAccess resource.AccountRead false;
     EvService (CallFindByID 42%N) None;
     EvRecord event.AccountView [];
     envelope (Some 200%N) (Some (Localized term.V_info ["account"]))
       (Some (OfAccount
                {| model.ID := 42%N; model.Columns := [("name", "forty-two")] |}))
       None].
Proof.
  exact (proj1 (FindByID_success (Demo.pk true) Demo.api Scenarios.read_42
                  Demo.table 42%N
                  {| model.ID := 42%N; model.Columns := [("name", "forty-two")] |}
                  Demo.table eq_refl eq_refl eq_refl)).
Defined.

(** A writer lists everything, and lists with a refused query. *)
Lemma List_outcomes_witness :
  run (List (Demo.pk true) Demo.api Scenarios.list_all) Demo.table =
    [EvCheckAccess resource.AccountWrite false;
     EvService (CallList "") None;
     EvDebug None;
     EvRecord event.AccountList [];
     envelope (Some 200%N) (Some (Localized term.List_of_V ["accounts"]))
       (Some (OfPage Demo.table)) None]
  /\ run (List (Demo.pk true) Demo.api Requests.list_bad_limit) Demo.table =
       [EvCheckAccess resource.AccountWrite false;
        EvService (CallList "limit=-1") (Some "invalid limit");
        EvDebug (Some "invalid limit");
        envelope None None None (Some (OfError "invalid limit"))].
Proof.
  split.
  - destruct (List_outcomes (Demo.pk true) Demo.api Scenarios.list_all
                Demo.table eq_refl) as [H _].
    exact (proj1 (H Demo.table Demo.table eq_refl)).
  - destruct (List_outcomes (Demo.pk true) Demo.api Requests.list_bad_limit
                Demo.table eq_refl) as [_ H].
    exact (proj1 (H "invalid limit" Demo.table eq_refl)).
Defined.

(** A writer renames account 42: the first snapshot is the account as it
    was, the second the account as submitted. *)
Lemma Update_success_witness :
  run (Update (Demo.pk true) Demo.api Requests.update_42) Demo.table =
    [EvCheckAccess resource.AccountWrite false;
     EvService (CallFindByID 42%N) None;
     EvService
       (CallSave {| model.ID := 42%N; model.Columns := [("name", "acme")] |})
       None;
     EvRecord event.AccountUpdate
       [Some {| model.ID := 42%N; model.Columns := [("name", "forty-two")] |};
        Some {| model.ID := 42%N; model.Columns := [("name", "acme")] |}];
     envelope (Some 200%N)
       (Some (Localized term.V_updated_successfully ["account"]))
       (Some (OfAccount
                {| model.ID := 42%N; model.Columns := [("name", "acme")] |}))
       None]
  /\ after (Update (Demo.pk true) Demo.api Requests.update_42) Demo.table
       = Scenarios.table_42_acme.
Proof.
  exact (Update_success (Demo.pk true) Demo.api Requests.update_42 Demo.table
           42%N
           {| model.ID := 42%N; model.Columns := [("name", "acme")] |}
           {| model.ID := 42%N; model.Columns := [("name", "forty-two")] |}
           {| model.ID := 42%N; model.Columns := [("name", "acme")] |}
           Demo.table Scenarios.table_42_acme
           eq_refl eq_refl eq_refl eq_refl eq_refl).
Defined.

(** A writer updates account 5, which is not in the table. *)
Lemma Update_not_found_witness :
  run (Update (Demo.pk true) Demo.api Requests.update_5) Demo.table =
    [EvCheckAccess resource.AccountWrite false;
     EvService (CallFindByID 5%N) (Some "record not found");
     envelope (Some 404%N) None None (Some (OfTerm term.Record_Not_Found))]
  /\ after (Update (Demo.pk true) Demo.api Requests.update_5) Demo.table
       = Demo.table.
Proof.
  exact (Update_not_found (Demo.pk true) Demo.api Requests.update_5 Demo.table
           5%N {| model.ID := 5%N; model.Columns := [("name", "acme")] |}
           "record not found" Demo.table
           eq_refl eq_refl eq_refl eq_refl).
Defined.

(** A writer deletes account 42. *)
Lemma Delete_success_witness :
  run (Delete (Demo.pk true) Demo.api Scenarios.delete_42) Demo.table =
    [EvCheckAccess resource.AccountWrite false;
     EvService (CallDelete 42%N) None;
     EvRecord event.AccountDelete
       [Some {| model.ID := 42%N; model.Columns := [("name", "forty-two")] |}];
     envelope (Some 200%N)
       (Some (Localized term.V_deleted_successfully ["account"]))
       None None]
  /\ after (Delete (Demo.pk true) Demo.api Scenarios.delete_42) Demo.table
       = Scenarios.table_without_42.
Proof.
  exact (Delete_success (Demo.pk true) Demo.api Scenarios.delete_42 Demo.table
           42%N
           {| model.ID := 42%N; model.Columns := [("name", "forty-two")] |}
           Scenarios.table_without_42 eq_refl eq_refl eq_refl).
Defined.

(** An admin exports the table: the rows of the workbook are the table. *)
Lemma Excel_workbook_rows_witness :
  run (Excel (Demo.pk true) Demo.api Requests.export_all) Demo.table =
    [EvCheckAccess resource.AccountExcel false;
     EvService (CallExcel "") None;
     EvRecord event.AccountExcel []]
    ++ EvWorkbook (workbook Demo.table)
    :: [EvGenerate true;
        EvWrite (OutHeader "Content-Description" "File Transfer");
        EvWrite (OutHeader "Content-Disposition"
                   "attachment; filename=account.xlsx");
        EvWrite (OutData 200 "application/octet-stream" [Byte.x50; Byte.x4b])]
  /\ exists accounts,
       fst (serv_Excel (Service Demo.api)
              (param_Get (Demo.pk true) Requests.export_all thisAccounts)
              Demo.table) = Ok accounts
       /\ workbook Demo.table = workbook accounts
       /\ In (excel.WriteData accounts) (workbook Demo.table).
Proof.
  split; [reflexivity |].
  exact (proj1 (Excel_workbook_rows (Demo.pk true) Demo.api Requests.export_all
                  Demo.table
                  [EvCheckAccess resource.AccountExcel false;
                   EvService (CallExcel "") None;
                   EvRecord event.AccountExcel []]
                  (workbook Demo.table)
                  [EvGenerate true;
                   EvWrite (OutHeader "Content-Description" "File Transfer");
                   EvWrite (OutHeader "Content-Disposition"
                              "attachment; filename=account.xlsx");
                   EvWrite (OutData 200 "application/octet-stream"
                              [Byte.x50; Byte.x4b])]
                  eq_refl)).
Defined.

(** The lookup of an update is the one call that is not the call its event
    describes. *)
Lemma calls_only_its_own_service_witness :
  In (EvService (CallFindByID 42%N) None)
    (run (handler (Demo.pk true) VUpdate Demo.api Requests.update_42) Demo.table)
  /\ (describes (audit_of VUpdate) (@CallFindByID Demo.Param 42%N) = true
      \/ (VUpdate = VUpdate
          /\ exists id, @CallFindByID Demo.Param 42%N = CallFindByID id)).
Proof.
  assert (Hin :
    In (EvService (CallFindByID 42%N) None)
      (run (handler (Demo.pk true) VUpdate Demo.api Requests.update_42)
         Demo.table)).
  { cbn. right. left. reflexivity. }
  split; [exact Hin |].
  exact (calls_only_its_own_service (Demo.pk true) Demo.api Requests.update_42
           Demo.table VUpdate _ _ Hin).
Defined.

(** The delete of account 42 is a call on the path identifier. *)
Lemma path_identifier_is_used_witness :
  In (EvService (CallDelete 42%N) None)
    (run (handler (Demo.pk true) VDelete Demo.api Scenarios.delete_42) Demo.table)
  /\ exists id,
       StrToRowID (Demo.pk true) (gin.Param Scenarios.delete_42 "accountID")
         = Ok id
       /\ (@CallDelete Demo.Param 42%N = CallFindByID id
           \/ @CallDelete Demo.Param 42%N = CallDelete id).
Proof.
  assert (Hin :
    In (EvService (CallDelete 42%N) None)
      (run (handler (Demo.pk true) VDelete Demo.api Scenarios.delete_42)
         Demo.table)).
  { cbn. right. left. reflexivity. }
  split; [exact Hin |].
  apply (path_identifier_is_used (Demo.pk true) Demo.api Scenarios.delete_42
           Demo.table VDelete (CallDelete 42%N) None).
  - cbn. right. left. reflexivity.
  - exact Hin.
Defined.

(** With path identifier 42 and body identifier 7, lookup and save agree on
    7. *)
Lemma Update_lookup_and_save_agree_witness :
  model.ID {| model.ID := 7%N; model.Columns := [("name", "acme")] |} = 7%N
  /\ @None error = None
  /\ exists pid,
       StrToRowID (Demo.pk true) (gin.Param Requests.update_42_body_7 "accountID")
         = Ok pid
       /\ ShouldBindJSON (Demo.pk true) Requests.update_42_body_7
            (model.withID model.zero pid)
          = Ok {| model.ID := 7%N; model.Columns := [("name", "acme")] |}.
Proof.
  apply (Update_lookup_and_save_agree (Demo.pk true) Demo.api
           Requests.update_42_body_7 Demo.table 7%N
           {| model.ID := 7%N; model.Columns := [("name", "acme")] |}
           None None).
  - cbn. right. left. reflexivity.
  - cbn. right. right. left. reflexivity.
Defined.

(** A create whose body has no identifier reaches the service with
    identifier 0. *)
Lemma Create_calls_witness :
  decodeJSON (Demo.pk true) (gin.Body Requests.create_acme) =
    Ok {| model.bodyID := None; model.bodyColumns := [("name", "acme")] |}
  /\ exists account,
       CallCreate {| model.ID := 0%N; model.Columns := [("name", "acme")] |} ""
         = CallCreate account
             (param_Get (Demo.pk true) Requests.create_acme "accounts")
       /\ ShouldBindJSON (Demo.pk true) Requests.create_acme model.zero
            = Ok account
       /\ model.ID account = 0%N.
Proof.
  split; [reflexivity |].
  apply (Create_calls (Demo.pk true) Demo.api Requests.create_acme Demo.table
           {| model.bodyID := None; model.bodyColumns := [("name", "acme")] |}
           (CallCreate
              {| model.ID := 0%N; model.Columns := [("name", "acme")] |} "")
           None).
  - reflexivity.
  - cbn. right. left. reflexivity.
Defined.

(** With path identifier 42 and a body that has no identifier, lookup and
    save are on 42. *)
Lemma Update_saves_under_path_identifier_witness :
  decodeJSON (Demo.pk true) (gin.Body Requests.update_42) =
    Ok {| model.bodyID := None; model.bodyColumns := [("name", "acme")] |}
  /\ exists tl,
       run (Update (Demo.pk true) Demo.api Requests.update_42) Demo.table =
         EvCheckAccess resource.AccountWrite false
           :: EvService (CallFindByID 42%N) None :: tl
       /\ forall a err, In (EvService (CallSave a) err) tl -> model.ID a = 42%N.
Proof.
  split; [reflexivity |].
  exact (Update_saves_under_path_identifier (Demo.pk true) Demo.api
           Requests.update_42 Demo.table 42%N
           {| model.bodyID := None; model.bodyColumns := [("name", "acme")] |}
           {| model.ID := 42%N; model.Columns := [("name", "acme")] |}
           eq_refl eq_refl eq_refl eq_refl eq_refl).
Defined.

(** The envelope of a delete whose identifier is [4x] has no status and
    carries [Invalid_ID]. *)
Lemma explicit_status_branches_witness :
  In (envelope None None None (Some (OfTerm term.Invalid_ID)))
    (run (handler (Demo.pk true) VDelete Demo.api Requests.delete_4x) Demo.table)
  /\ (Some (OfTerm term.Invalid_ID) = Some (OfTerm term.Invalid_ID)
      \/ exists call err,
           In (EvService call (Some err))
             (run (handler (Demo.pk true) VDelete Demo.api Requests.delete_4x)
                Demo.table)
           /\ Some (OfTerm term.Invalid_ID) = Some (OfError err)).
Proof.
  assert (Hin :
    In (envelope None None None (Some (OfTerm term.Invalid_ID)))
      (run (handler (Demo.pk true) VDelete Demo.api Requests.delete_4x)
         Demo.table)).
  { cbn. right. left. reflexivity. }
  split; [exact Hin |].
  destruct (explicit_status_branches (Demo.pk true) Demo.api Requests.delete_4x
              Demo.table VDelete _ _ Hin) as [_ [_ H]].
  exact (H eq_refl).
Defined.
